(** * ha_blueair: the AWS data update coordinator

    A shallow embedding of
    [custom_components/ha_blueair/blueair_aws_data_update_coordinator.py]
    and the properties of its class [BlueairAwsDataUpdateCoordinator]:
    the forwarding properties, the model-specific fan-speed range, the
    filter status, the command methods and the periodic update. *)

From Stdlib Require Import ZArith QArith List String Bool Lia.
From Stdlib Require Import DecimalString.
Import ListNotations.
Local Open Scope string_scope.
Local Open Scope Z_scope.

(** ** Python values *)

Module Py.

(** The values the device client's attributes hold and the properties
    return: the two singletons [None] and [NotImplemented], booleans,
    integers and strings. *)
Inductive value : Type :=
| None
| NotImplemented
| Bool (b : bool)
| Int (z : Z)
| Str (s : string).

(** What a call can raise. [TypeError], [ApiError] and [UpdateFailed]
    are instances of Python's [Exception] class; [ApiError] stands for
    any error class of the API package or of its transport, and
    [UpdateFailed error] raised [from error] keeps the error both as its
    argument and as its [__cause__]. [CancelledError]
    ([asyncio.CancelledError], raised at an [await] when the task is
    cancelled) and [ExitSignal] ([KeyboardInterrupt], [SystemExit],
    [GeneratorExit]) derive from [BaseException] only. *)
Inductive exn : Type :=
| TypeError
| ApiError (cls : string) (msg : string)
| UpdateFailed (arg : exn) (cause : exn)
| CancelledError
| ExitSignal (cls : string).

(** [isinstance(e, Exception)]. *)
Definition is_Exception (e : exn) : bool :=
  match e with
  | CancelledError | ExitSignal _ => false
  | _ => true
  end.

(** A call either returns or raises. *)
Inductive result (A : Type) : Type :=
| Ok (a : A)
| Raise (e : exn).
Arguments Ok {A} a.
Arguments Raise {A} e.

Definition value_eqb (a b : value) : bool :=
  match a, b with
  | None, None => true
  | NotImplemented, NotImplemented => true
  | Bool x, Bool y => Bool.eqb x y
  | Int x, Int y => Z.eqb x y
  | Bool x, Int y => Z.eqb (Z.b2z x) y
  | Int x, Bool y => Z.eqb x (Z.b2z y)
  | Str x, Str y => String.eqb x y
  | _, _ => false
  end.

(** [x in (a, b, ...)]: some member is equal to [x]. *)
Definition contains (x : value) (l : list value) : bool :=
  existsb (value_eqb x) l.

(** The number behind a boolean or an integer ([True] is 1). *)
Definition as_int (v : value) : option Z :=
  match v with
  | Bool b => Some (Z.b2z b)
  | Int z => Some z
  | _ => Datatypes.None
  end.

(** [a >= b]: numbers compare by value, strings in lexicographic order,
    and every other pair of operands raises [TypeError]. *)
Definition ge (a b : value) : result value :=
  match as_int a, as_int b with
  | Some x, Some y => Ok (Bool (Z.geb x y))
  | _, _ =>
      match a, b with
      | Str s, Str t => Ok (Bool (String.leb t s))
      | _, _ => Raise TypeError
      end
  end.

(** [str(v)], as an f-string field formats it. *)
Definition str (v : value) : string :=
  match v with
  | None => "None"
  | NotImplemented => "NotImplemented"
  | Bool true => "True"
  | Bool false => "False"
  | Int z => NilZero.string_of_int (Z.to_int z)
  | Str s => s
  end.

End Py.

(** ** The API package: device models and the device client *)

(** The members of [blueair_api.ModelEnum] this file names, and
    [OTHER] for every member it does not name. *)
Inductive ModelEnum : Type :=
| HUMIDIFIER_H35I
| MAX_211I
| MAX_311I
| PROTECT_7440I
| PROTECT_7470I
| T10I
| OTHER (member : string).

Definition ModelEnum_eqb (a b : ModelEnum) : bool :=
  match a, b with
  | HUMIDIFIER_H35I, HUMIDIFIER_H35I => true
  | MAX_211I, MAX_211I => true
  | MAX_311I, MAX_311I => true
  | PROTECT_7440I, PROTECT_7440I => true
  | PROTECT_7470I, PROTECT_7470I => true
  | T10I, T10I => true
  | OTHER x, OTHER y => String.eqb x y
  | _, _ => false
  end.

(** [m in [a, b, ...]] on enum members. *)
Definition ModelEnum_in (m : ModelEnum) (l : list ModelEnum) : bool :=
  existsb (ModelEnum_eqb m) l.

(** The client object [blueair_api.DeviceAws]: the attributes the
    coordinator reads. Attribute values are Python values; [model] is a
    member of [ModelEnum]. *)
Module DeviceAws.

Record t : Type := mk {
  uuid : Py.value;
  name : Py.value;
  model : ModelEnum;
  fan_speed : Py.value;
  running : Py.value;
  brightness : Py.value;
  child_lock : Py.value;
  night_mode : Py.value;
  temperature : Py.value;
  humidity : Py.value;
  tVOC : Py.value;
  pm1 : Py.value;
  pm10 : Py.value;
  pm2_5 : Py.value;
  wifi_working : Py.value;
  fan_auto_mode : Py.value;
  wick_dry_mode : Py.value;
  water_shortage : Py.value;
  filter_usage_percentage : Py.value;
  wick_usage_percentage : Py.value
}.

(** The asynchronous methods of the client the coordinator awaits, each
    with the argument it is called with. *)
Inductive call : Type :=
| refresh
| set_fan_speed (new_speed : Py.value)
| set_running (running : Py.value)
| set_brightness (brightness : Py.value)
| set_child_lock (locked : Py.value)
| set_night_mode (mode : Py.value)
| set_fan_auto_mode (value : Py.value)
| set_wick_dry_mode (value : Py.value).

(** What the package does is not part of this repository, so it is an
    interface: [model_name] is the property of that name of an enum
    member, and [perform] runs a method of the client against the
    outside world [Env] (cloud, network), returning or raising and
    leaving a new outside world and new attributes on the client. *)
Class Api (Env : Type) : Type := {
  model_name : ModelEnum -> Py.value;
  perform : call -> Env -> t -> Py.result unit * (Env * t)
}.

End DeviceAws.

(** ** The host framework *)

Module Host.

(** A Home Assistant instance is an opaque handle. *)
Inductive HomeAssistant : Type :=
| Hass (instance : nat).

(** [logging.getLogger(name)]. *)
Record Logger : Type := getLogger { logger_name : string }.

(** [datetime.timedelta], normalised as Python stores it. *)
Record timedelta : Type := mk_timedelta {
  days : Z;
  seconds : Z;
  microseconds : Z
}.

(** [timedelta(minutes=m)]. *)
Definition timedelta_minutes (m : Z) : timedelta :=
  let s := m * 60 in
  {| days := s / 86400; seconds := s mod 86400; microseconds := 0 |}.

Definition total_seconds (d : timedelta) : Q :=
  inject_Z (days d * 86400 + seconds d) + inject_Z (microseconds d) / inject_Z 1000000.

(** [Debouncer(hass, logger, cooldown=..., immediate=...)]: the
    arguments the host's debouncer is built with. The cooldown is a
    float literal in seconds, held here as the rational it denotes. *)
Record Debouncer : Type := mk_Debouncer {
  debouncer_hass : HomeAssistant;
  debouncer_logger : Logger;
  cooldown : Q;
  immediate : bool
}.

End Host.

(** ** Constants of the integration *)

(** [from .const import DOMAIN, FILTER_EXPIRED_THRESHOLD]: the two
    constants are defined in [const.py]; the coordinator only uses them,
    so they are parameters here. *)
Class Const : Type := {
  DOMAIN : string;
  FILTER_EXPIRED_THRESHOLD : Py.value
}.

(** ** Names of the coordinator's members *)

(** The properties of the class, by name. *)
Module Property.
Inductive t : Type :=
| id | device_name | manufacturer | model | fan_speed | speed_count
| is_on | brightness | child_lock | night_mode | temperature | humidity
| voc | pm1 | pm10 | pm25 | co2 | online | fan_auto_mode | wick_dry_mode
| water_shortage | filter_expired.
End Property.

(** The command methods of the class, by name. *)
Module Command.
Inductive t : Type :=
| set_fan_speed | set_running | set_brightness | set_child_lock
| set_night_mode | set_fan_auto_mode | set_wick_dry_mode.
End Command.

(** ** The coordinator *)

Module Coordinator.

(** [_LOGGER = logging.getLogger(__name__)]. *)
Definition __name__ : string :=
  "custom_components.ha_blueair.blueair_aws_data_update_coordinator".
Definition _LOGGER : Host.Logger := Host.getLogger __name__.

(** The attributes of a coordinator object: the two its own [__init__]
    assigns and those the base class [DataUpdateCoordinator] keeps from
    the arguments of [super().__init__]. The attribute
    [blueair_api_device] is a reference to the client object, which is
    shared with the API package and lives in the [World] below. *)
Record t : Type := mk {
  hass : Host.HomeAssistant;
  _manufacturer : string;
  logger : Host.Logger;
  name : string;
  update_interval : Host.timedelta;
  request_refresh_debouncer : Host.Debouncer
}.

(** What the coordinator's methods leave behind for the host and the
    client to see, in the order it happened. *)
Inductive event : Type :=
| DeviceCall (c : DeviceAws.call)
| RequestRefresh
| LogInfo (l : Host.Logger) (msg : string) (args : list Py.value)
| LogException (l : Host.Logger) (error : Py.exn).

(** The dictionary [_async_update_data] returns. *)
Definition dict : Type := list (Py.value * Py.value).

(** The world a method runs in: the outside world of the client, the
    client object, the coordinator object and the events so far. *)
Record World (Env : Type) : Type := mkWorld {
  env : Env;
  device : DeviceAws.t;
  self : t;
  trace : list event
}.
Arguments mkWorld {Env} env device self trace.
Arguments env {Env} w.
Arguments device {Env} w.
Arguments self {Env} w.
Arguments trace {Env} w.

Declare Scope py_scope.
Delimit Scope py_scope with py.

Section WithApi.

Context {Env : Type} {Api : DeviceAws.Api Env} {Cst : Const}.

(** Code that reads and writes the world and returns or raises; what
    was written before an exception stays written. *)
Definition M (A : Type) : Type := World Env -> Py.result A * World Env.

Definition ret {A} (a : A) : M A := fun w => (Py.Ok a, w).

Definition bind {A B} (c : M A) (k : A -> M B) : M B :=
  fun w =>
    match c w with
    | (Py.Ok a, w') => k a w'
    | (Py.Raise e, w') => (Py.Raise e, w')
    end.

Definition raise {A} (e : Py.exn) : M A := fun w => (Py.Raise e, w).

(** [try: c except Exception as error: h error]: the handler runs for
    an instance of [Exception]; anything else goes on to the caller. *)
Definition try_except {A} (c : M A) (h : Py.exn -> M A) : M A :=
  fun w =>
    match c w with
    | (Py.Ok a, w') => (Py.Ok a, w')
    | (Py.Raise e, w') =>
        if Py.is_Exception e then h e w' else (Py.Raise e, w')
    end.

(** The outcome of evaluating an expression, as a step. *)
Definition lift {A} (r : Py.result A) : M A := fun w => (r, w).

Notation "x <- c ;; k" := (bind c (fun x => k))
  (at level 61, c at next level, right associativity) : py_scope.
Notation "c ;; k" := (bind c (fun _ => k))
  (at level 61, right associativity) : py_scope.
Local Open Scope py_scope.

(** [self.blueair_api_device.<attr>]: follow the reference to the
    client object and read an attribute of it. *)
Definition blueair_api_device {A} (attr : DeviceAws.t -> A) : M A :=
  fun w => (Py.Ok (attr (device w)), w).

(** [self.<attr>]. *)
Definition getattr {A} (attr : t -> A) : M A :=
  fun w => (Py.Ok (attr (self w)), w).

(** [self.name = n]. *)
Definition set_name (n : string) : M unit :=
  fun w =>
    let c := self w in
    (Py.Ok tt,
     mkWorld (env w) (device w)
       (mk (hass c) (_manufacturer c) (logger c) n (update_interval c)
          (request_refresh_debouncer c))
       (trace w)).

Definition emit (e : event) : M unit :=
  fun w => (Py.Ok tt, mkWorld (env w) (device w) (self w) (trace w ++ [e])).

(** [await self.blueair_api_device.<method>(<argument>)]: the call is
    made, and the client returns or raises. *)
Definition await (c : DeviceAws.call) : M unit :=
  emit (DeviceCall c) ;;
  fun w =>
    let '(r, (e, d)) := DeviceAws.perform c (env w) (device w) in
    (r, mkWorld e d (self w) (trace w)).

(** [await self.async_request_refresh()], a method of the base class:
    the host is asked for a refresh, which its debouncer schedules. *)
Definition async_request_refresh : M unit := emit RequestRefresh.

(** [_LOGGER.info(msg, *args)] and [_LOGGER.exception(error)]. *)
Definition info (msg : string) (args : list Py.value) : M unit :=
  emit (LogInfo _LOGGER msg args).
Definition exception (error : Py.exn) : M unit :=
  emit (LogException _LOGGER error).

(** *** [__init__] *)

(** The coordinator [__init__] builds for a host instance and a client:
    [_manufacturer] is assigned by the method itself, the other
    attributes are the arguments it hands to [super().__init__]. *)
Definition __init__ (hass : Host.HomeAssistant) (blueair_api_device : DeviceAws.t) : t :=
  {| hass := hass;
     _manufacturer := "BlueAir";
     logger := _LOGGER;
     name := DOMAIN ++ "-" ++ Py.str (DeviceAws.uuid blueair_api_device);
     update_interval := Host.timedelta_minutes 5;
     request_refresh_debouncer :=
       Host.mk_Debouncer hass _LOGGER 5 false |}.

(** The world right after
    [BlueairAwsDataUpdateCoordinator(hass, blueair_api_device)]. *)
Definition construct (e : Env) (hass : Host.HomeAssistant)
    (blueair_api_device : DeviceAws.t) : World Env :=
  mkWorld e blueair_api_device (__init__ hass blueair_api_device) [].

(** *** Properties *)

Definition id : M Py.value := blueair_api_device DeviceAws.uuid.

Definition device_name : M Py.value := blueair_api_device DeviceAws.name.

Definition manufacturer : M Py.value :=
  m <- getattr _manufacturer ;; ret (Py.Str m).

Definition model : M Py.value :=
  m <- blueair_api_device DeviceAws.model ;; ret (DeviceAws.model_name m).

Definition fan_speed : M Py.value := blueair_api_device DeviceAws.fan_speed.

Definition speed_count : M Py.value :=
  m <- blueair_api_device DeviceAws.model ;;
  if ModelEnum_eqb m HUMIDIFIER_H35I then
    ret (Py.Int 64)
  else
    m <- blueair_api_device DeviceAws.model ;;
    if ModelEnum_in m [MAX_211I; MAX_311I; PROTECT_7440I; PROTECT_7470I] then
      ret (Py.Int 91)
    else
      m <- blueair_api_device DeviceAws.model ;;
      if ModelEnum_eqb m T10I then
        ret (Py.Int 4)
      else
        ret (Py.Int 100).

Definition is_on : M Py.value := blueair_api_device DeviceAws.running.
Definition brightness : M Py.value := blueair_api_device DeviceAws.brightness.
Definition child_lock : M Py.value := blueair_api_device DeviceAws.child_lock.
Definition night_mode : M Py.value := blueair_api_device DeviceAws.night_mode.
Definition temperature : M Py.value := blueair_api_device DeviceAws.temperature.
Definition humidity : M Py.value := blueair_api_device DeviceAws.humidity.
Definition voc : M Py.value := blueair_api_device DeviceAws.tVOC.
Definition pm1 : M Py.value := blueair_api_device DeviceAws.pm1.
Definition pm10 : M Py.value := blueair_api_device DeviceAws.pm10.
Definition pm25 : M Py.value := blueair_api_device DeviceAws.pm2_5.
Definition co2 : M Py.value := ret Py.NotImplemented.
Definition online : M Py.value := blueair_api_device DeviceAws.wifi_working.
Definition fan_auto_mode : M Py.value := blueair_api_device DeviceAws.fan_auto_mode.
Definition wick_dry_mode : M Py.value := blueair_api_device DeviceAws.wick_dry_mode.
Definition water_shortage : M Py.value := blueair_api_device DeviceAws.water_shortage.

(** A method body that ends without [return] returns [None]. *)
Definition filter_expired : M Py.value :=
  f <- blueair_api_device DeviceAws.filter_usage_percentage ;;
  if negb (Py.contains f [Py.NotImplemented; Py.None]) then
    f <- blueair_api_device DeviceAws.filter_usage_percentage ;;
    lift (Py.ge f FILTER_EXPIRED_THRESHOLD)
  else
    k <- blueair_api_device DeviceAws.wick_usage_percentage ;;
    if negb (Py.contains k [Py.NotImplemented; Py.None]) then
      k <- blueair_api_device DeviceAws.wick_usage_percentage ;;
      lift (Py.ge k FILTER_EXPIRED_THRESHOLD)
    else
      ret Py.None.

(** *** The periodic update *)

Definition _async_update_data : M dict :=
  try_except
    (await DeviceAws.refresh ;;
     n <- blueair_api_device DeviceAws.name ;;
     set_name (DOMAIN ++ "-" ++ Py.str n) ;;
     p <- pm1 ;;
     info "update called, pm1=%s" [p] ;;
     ret [])
    (fun error =>
       exception error ;;
       raise (Py.UpdateFailed error error)).

(** *** Commands *)

Definition set_fan_speed (new_speed : Py.value) : M unit :=
  await (DeviceAws.set_fan_speed new_speed) ;;
  async_request_refresh.

Definition set_running (running : Py.value) : M unit :=
  await (DeviceAws.set_running running) ;;
  async_request_refresh.

Definition set_brightness (brightness : Py.value) : M unit :=
  await (DeviceAws.set_brightness brightness) ;;
  async_request_refresh.

Definition set_child_lock (locked : Py.value) : M unit :=
  await (DeviceAws.set_child_lock locked) ;;
  async_request_refresh.

Definition set_night_mode (mode : Py.value) : M unit :=
  await (DeviceAws.set_night_mode mode) ;;
  async_request_refresh.

Definition set_fan_auto_mode (value : Py.value) : M unit :=
  await (DeviceAws.set_fan_auto_mode value) ;;
  async_request_refresh.

Definition set_wick_dry_mode (value : Py.value) : M unit :=
  await (DeviceAws.set_wick_dry_mode value) ;;
  async_request_refresh.

(** *** Members by name *)

(** Evaluating the property of a given name. *)
Definition get (p : Property.t) : M Py.value :=
  match p with
  | Property.id => id
  | Property.device_name => device_name
  | Property.manufacturer => manufacturer
  | Property.model => model
  | Property.fan_speed => fan_speed
  | Property.speed_count => speed_count
  | Property.is_on => is_on
  | Property.brightness => brightness
  | Property.child_lock => child_lock
  | Property.night_mode => night_mode
  | Property.temperature => temperature
  | Property.humidity => humidity
  | Property.voc => voc
  | Property.pm1 => pm1
  | Property.pm10 => pm10
  | Property.pm25 => pm25
  | Property.co2 => co2
  | Property.online => online
  | Property.fan_auto_mode => fan_auto_mode
  | Property.wick_dry_mode => wick_dry_mode
  | Property.water_shortage => water_shortage
  | Property.filter_expired => filter_expired
  end.

(** Calling the command method of a given name. *)
Definition run (c : Command.t) : Py.value -> M unit :=
  match c with
  | Command.set_fan_speed => set_fan_speed
  | Command.set_running => set_running
  | Command.set_brightness => set_brightness
  | Command.set_child_lock => set_child_lock
  | Command.set_night_mode => set_night_mode
  | Command.set_fan_auto_mode => set_fan_auto_mode
  | Command.set_wick_dry_mode => set_wick_dry_mode
  end.

(** The client's method of the same name as a command. *)
Definition client_method (c : Command.t) : Py.value -> DeviceAws.call :=
  match c with
  | Command.set_fan_speed => DeviceAws.set_fan_speed
  | Command.set_running => DeviceAws.set_running
  | Command.set_brightness => DeviceAws.set_brightness
  | Command.set_child_lock => DeviceAws.set_child_lock
  | Command.set_night_mode => DeviceAws.set_night_mode
  | Command.set_fan_auto_mode => DeviceAws.set_fan_auto_mode
  | Command.set_wick_dry_mode => DeviceAws.set_wick_dry_mode
  end.

(** The operations of a coordinator once it is built: reading a
    property, calling a command, and the host running the periodic
    update. *)
Inductive operation : Type :=
| Read (p : Property.t)
| Call (c : Command.t) (arg : Py.value)
| Update.

(** The world after an operation, whether it returned or raised. *)
Definition step (w : World Env) (o : operation) : World Env :=
  match o with
  | Read p => snd (get p w)
  | Call c arg => snd (run c arg w)
  | Update => snd (_async_update_data w)
  end.

Definition steps (ops : list operation) (w : World Env) : World Env :=
  fold_left step ops w.

End WithApi.

Notation "x <- c ;; k" := (bind c (fun x => k))
  (at level 61, c at next level, right associativity) : py_scope.
Notation "c ;; k" := (bind c (fun _ => k))
  (at level 61, right associativity) : py_scope.

End Coordinator.

(** ** Observations on operations and traces *)

Module Observe.

Import Coordinator.

(** A call to one of the client's setters, as opposed to [refresh]. *)
Definition is_command_call (c : DeviceAws.call) : bool :=
  match c with
  | DeviceAws.refresh => false
  | _ => true
  end.

Definition is_device_call (e : event) : bool :=
  match e with
  | DeviceCall _ => true
  | _ => false
  end.

Definition is_refresh_request (e : event) : bool :=
  match e with
  | RequestRefresh => true
  | _ => false
  end.


(** Whether an event is a setter call on the client. *)
Definition is_setter_event (e : event) : bool :=
  match e with
  | DeviceCall c => is_command_call c
  | _ => false
  end.

(** Reading a trace from the oldest event on: every refresh request
    comes right after a setter call on the client. [after_call] tells
    whether the event before the trace was such a call. *)
Fixpoint refreshes_follow_calls (after_call : bool) (tr : list event) : bool :=
  match tr with
  | [] => true
  | e :: tr' =>
      (if is_refresh_request e then after_call else true)
      && refreshes_follow_calls (is_setter_event e) tr'
  end.

(** Whether the last event, if any, is a setter call. *)
Fixpoint ends_with_call (after_call : bool) (tr : list event) : bool :=
  match tr with
  | [] => after_call
  | e :: tr' => ends_with_call (is_setter_event e) tr'
  end.

Definition count_device_calls (tr : list event) : nat :=
  List.length (filter is_device_call tr).

Definition count_refresh_requests (tr : list event) : nat :=
  List.length (filter is_refresh_request tr).

Definition is_update (o : operation) : bool :=
  match o with
  | Update => true
  | _ => false
  end.

Definition is_command (o : operation) : bool :=
  match o with
  | Call _ _ => true
  | _ => false
  end.

(** Commands and updates reach the client; reads do not. *)
Definition reaches_client (o : operation) : bool :=
  match o with
  | Read _ => false
  | _ => true
  end.

Section Outcomes.

Context {Env : Type} {Api : DeviceAws.Api Env} {Cst : Const}.

(** Whether the client's method behind a command returns, rather than
    raises, when called in world [w]. *)
Definition client_returns (c : Command.t) (arg : Py.value) (w : World Env) : bool :=
  match fst (DeviceAws.perform (client_method c arg) (env w) (device w)) with
  | Py.Ok _ => true
  | Py.Raise _ => false
  end.

(** Running the operations from world [w] on: the number of commands
    whose call to the client returned. *)
Fixpoint returned_commands (ops : list operation) (w : World Env) : nat :=
  match ops with
  | [] => 0
  | o :: ops' =>
      match o with
      | Call c arg => Nat.b2n (client_returns c arg w)
      | _ => 0
      end + returned_commands ops' (step w o)
  end%nat.

End Outcomes.

End Observe.

(** ** A simulated client *)

(** A client to run the coordinator against: the outside world is the
    list of answers the cloud will give to the coming refreshes, each
    either an error or the attributes the client then holds; a setter
    writes the attribute it names. *)
Module Simulated.

Definition cloud : Type := list (Py.exn + DeviceAws.t).

Definition with_fan_speed (v : Py.value) (d : DeviceAws.t) : DeviceAws.t :=
  DeviceAws.mk (DeviceAws.uuid d) (DeviceAws.name d) (DeviceAws.model d) v
    (DeviceAws.running d) (DeviceAws.brightness d) (DeviceAws.child_lock d)
    (DeviceAws.night_mode d) (DeviceAws.temperature d) (DeviceAws.humidity d)
    (DeviceAws.tVOC d) (DeviceAws.pm1 d) (DeviceAws.pm10 d) (DeviceAws.pm2_5 d)
    (DeviceAws.wifi_working d) (DeviceAws.fan_auto_mode d)
    (DeviceAws.wick_dry_mode d) (DeviceAws.water_shortage d)
    (DeviceAws.filter_usage_percentage d) (DeviceAws.wick_usage_percentage d).

Definition with_running (v : Py.value) (d : DeviceAws.t) : DeviceAws.t :=
  DeviceAws.mk (DeviceAws.uuid d) (DeviceAws.name d) (DeviceAws.model d)
    (DeviceAws.fan_speed d) v (DeviceAws.brightness d) (DeviceAws.child_lock d)
    (DeviceAws.night_mode d) (DeviceAws.temperature d) (DeviceAws.humidity d)
    (DeviceAws.tVOC d) (DeviceAws.pm1 d) (DeviceAws.pm10 d) (DeviceAws.pm2_5 d)
    (DeviceAws.wifi_working d) (DeviceAws.fan_auto_mode d)
    (DeviceAws.wick_dry_mode d) (DeviceAws.water_shortage d)
    (DeviceAws.filter_usage_percentage d) (DeviceAws.wick_usage_percentage d).

Definition perform (c : DeviceAws.call) (e : cloud) (d : DeviceAws.t)
    : Py.result unit * (cloud * DeviceAws.t) :=
  match c with
  | DeviceAws.refresh =>
      match e with
      | [] => (Py.Raise (Py.ApiError "TimeoutError" "no answer"), (e, d))
      | inl error :: e' => (Py.Raise error, (e', d))
      | inr d' :: e' => (Py.Ok tt, (e', d'))
      end
  | DeviceAws.set_fan_speed v => (Py.Ok tt, (e, with_fan_speed v d))
  | DeviceAws.set_running v => (Py.Ok tt, (e, with_running v d))
  | DeviceAws.set_brightness (Py.Int _) => (Py.Ok tt, (e, d))
  | DeviceAws.set_brightness _ => (Py.Raise Py.TypeError, (e, d))
  | _ => (Py.Ok tt, (e, d))
  end.

Definition model_name (m : ModelEnum) : Py.value :=
  match m with
  | HUMIDIFIER_H35I => Py.Str "Humidifier H35i"
  | MAX_211I => Py.Str "Blue Pure 211i Max"
  | MAX_311I => Py.Str "Blue Pure 311i Max"
  | PROTECT_7440I => Py.Str "Protect 7440i"
  | PROTECT_7470I => Py.Str "Protect 7470i"
  | T10I => Py.Str "T10i"
  | OTHER member => Py.Str member
  end.

Definition api : DeviceAws.Api cloud :=
  {| DeviceAws.model_name := model_name; DeviceAws.perform := perform |}.

Definition const : Const :=
  {| DOMAIN := "ha_blueair"; FILTER_EXPIRED_THRESHOLD := Py.Int 95 |}.

(** A Blue Pure 211i Max in a living room. *)
Definition purifier : DeviceAws.t :=
  {| DeviceAws.uuid := Py.Str "a1b2";
     DeviceAws.name := Py.Str "Living room";
     DeviceAws.model := MAX_211I;
     DeviceAws.fan_speed := Py.Int 30;
     DeviceAws.running := Py.Bool true;
     DeviceAws.brightness := Py.Int 50;
     DeviceAws.child_lock := Py.Bool false;
     DeviceAws.night_mode := Py.Bool false;
     DeviceAws.temperature := Py.Int 21;
     DeviceAws.humidity := Py.Int 40;
     DeviceAws.tVOC := Py.Int 120;
     DeviceAws.pm1 := Py.Int 3;
     DeviceAws.pm10 := Py.Int 7;
     DeviceAws.pm2_5 := Py.Int 5;
     DeviceAws.wifi_working := Py.Bool true;
     DeviceAws.fan_auto_mode := Py.Bool false;
     DeviceAws.wick_dry_mode := Py.NotImplemented;
     DeviceAws.water_shortage := Py.NotImplemented;
     DeviceAws.filter_usage_percentage := Py.Int 96;
     DeviceAws.wick_usage_percentage := Py.NotImplemented |}.

(** A humidifier: it has a wick and no filter. *)
Definition humidifier : DeviceAws.t :=
  {| DeviceAws.uuid := Py.Str "c3d4";
     DeviceAws.name := Py.Str "Bedroom";
     DeviceAws.model := HUMIDIFIER_H35I;
     DeviceAws.fan_speed := Py.Int 11;
     DeviceAws.running := Py.Bool true;
     DeviceAws.brightness := Py.Int 0;
     DeviceAws.child_lock := Py.Bool true;
     DeviceAws.night_mode := Py.Bool true;
     DeviceAws.temperature := Py.Int 19;
     DeviceAws.humidity := Py.Int 55;
     DeviceAws.tVOC := Py.NotImplemented;
     DeviceAws.pm1 := Py.NotImplemented;
     DeviceAws.pm10 := Py.NotImplemented;
     DeviceAws.pm2_5 := Py.NotImplemented;
     DeviceAws.wifi_working := Py.Bool true;
     DeviceAws.fan_auto_mode := Py.Bool true;
     DeviceAws.wick_dry_mode := Py.Bool false;
     DeviceAws.water_shortage := Py.Bool false;
     DeviceAws.filter_usage_percentage := Py.NotImplemented;
     DeviceAws.wick_usage_percentage := Py.Int 12 |}.

(** A client that has not been refreshed yet: nothing is known. *)
Definition blank : DeviceAws.t :=
  {| DeviceAws.uuid := Py.Str "e5f6";
     DeviceAws.name := Py.None;
     DeviceAws.model := OTHER "UNKNOWN";
     DeviceAws.fan_speed := Py.NotImplemented;
     DeviceAws.running := Py.NotImplemented;
     DeviceAws.brightness := Py.NotImplemented;
     DeviceAws.child_lock := Py.NotImplemented;
     DeviceAws.night_mode := Py.NotImplemented;
     DeviceAws.temperature := Py.NotImplemented;
     DeviceAws.humidity := Py.NotImplemented;
     DeviceAws.tVOC := Py.NotImplemented;
     DeviceAws.pm1 := Py.NotImplemented;
     DeviceAws.pm10 := Py.NotImplemented;
     DeviceAws.pm2_5 := Py.NotImplemented;
     DeviceAws.wifi_working := Py.None;
     DeviceAws.fan_auto_mode := Py.NotImplemented;
     DeviceAws.wick_dry_mode := Py.NotImplemented;
     DeviceAws.water_shortage := Py.NotImplemented;
     DeviceAws.filter_usage_percentage := Py.NotImplemented;
     DeviceAws.wick_usage_percentage := Py.None |}.

Definition hass : Host.HomeAssistant := Host.Hass 0.

(** The world right after a coordinator is built for client [d], with
    the cloud about to give the answers [e]. *)
Definition world (e : cloud) (d : DeviceAws.t) : Coordinator.World cloud :=
  Coordinator.construct (Cst := const) e hass d.

End Simulated.

(** More clients for the simulated cloud. *)
Module Scenario.

(** Client [d] with other usage percentages. *)
Definition with_usage (f k : Py.value) (d : DeviceAws.t) : DeviceAws.t :=
  DeviceAws.mk (DeviceAws.uuid d) (DeviceAws.name d) (DeviceAws.model d)
    (DeviceAws.fan_speed d) (DeviceAws.running d) (DeviceAws.brightness d)
    (DeviceAws.child_lock d) (DeviceAws.night_mode d) (DeviceAws.temperature d)
    (DeviceAws.humidity d) (DeviceAws.tVOC d) (DeviceAws.pm1 d) (DeviceAws.pm10 d)
    (DeviceAws.pm2_5 d) (DeviceAws.wifi_working d) (DeviceAws.fan_auto_mode d)
    (DeviceAws.wick_dry_mode d) (DeviceAws.water_shortage d) f k.

(** A client that reports its filter usage as text. *)
Definition garbled : DeviceAws.t :=
  with_usage (Py.Str "96%") Py.NotImplemented Simulated.purifier.

(** A purifier that also reports a wick. *)
Definition with_wick : DeviceAws.t :=
  with_usage (Py.Int 96) (Py.Int 12) Simulated.purifier.

End Scenario.

(** ** Properties of the coordinator *)

Import Coordinator.
Local Open Scope py_scope.

Section Properties.

Context {Env : Type} {Api : DeviceAws.Api Env} {Cst : Const}.
Implicit Types (w : World Env) (v arg : Py.value).

(** *** Python's membership test against [(NotImplemented, None)] *)

Lemma contains_unavailable v :
  Py.contains v [Py.NotImplemented; Py.None] = true <->
  v = Py.NotImplemented \/ v = Py.None.
Proof.
  split.
  - destruct v; cbn; intro H; try discriminate H; auto.
  - intros [-> | ->]; reflexivity.
Qed.

Lemma contains_available v :
  v <> Py.NotImplemented /\ v <> Py.None ->
  Py.contains v [Py.NotImplemented; Py.None] = false.
Proof.
  intros [Hn Ho]. destruct v; try reflexivity; congruence.
Qed.

(** *** Each property, run *)

Lemma speed_count_run w :
  speed_count w =
  (Py.Ok (Py.Int
     match DeviceAws.model (device w) with
     | HUMIDIFIER_H35I => 64
     | MAX_211I | MAX_311I | PROTECT_7440I | PROTECT_7470I => 91
     | T10I => 4
     | OTHER _ => 100
     end), w).
Proof.
  unfold speed_count, bind, blueair_api_device, ret.
  destruct (DeviceAws.model (device w)) eqn:E;
    repeat (cbn; rewrite ?E); reflexivity.
Qed.

Lemma filter_expired_run w :
  filter_expired w =
  (if negb (Py.contains (DeviceAws.filter_usage_percentage (device w))
              [Py.NotImplemented; Py.None])
   then Py.ge (DeviceAws.filter_usage_percentage (device w)) FILTER_EXPIRED_THRESHOLD
   else if negb (Py.contains (DeviceAws.wick_usage_percentage (device w))
                   [Py.NotImplemented; Py.None])
   then Py.ge (DeviceAws.wick_usage_percentage (device w)) FILTER_EXPIRED_THRESHOLD
   else Py.Ok Py.None, w).
Proof.
  unfold filter_expired, bind, blueair_api_device, lift, ret.
  destruct (negb (Py.contains (DeviceAws.filter_usage_percentage (device w)) _)).
  - reflexivity.
  - destruct (negb (Py.contains (DeviceAws.wick_usage_percentage (device w)) _));
      reflexivity.
Qed.

Lemma get_unchanged (p : Property.t) w : snd (get p w) = w.
Proof.
  destruct p; try reflexivity.
  - cbn [get]. rewrite speed_count_run. reflexivity.
  - cbn [get]. rewrite filter_expired_run. reflexivity.
Qed.

(** *** Each command and the update, run *)

Lemma await_run (c : DeviceAws.call) w :
  await c w =
  let '(r, (e, d)) := DeviceAws.perform c (env w) (device w) in
  (r, mkWorld e d (self w) (trace w ++ [DeviceCall c])).
Proof.
  unfold await, bind, emit. cbn.
  destruct (DeviceAws.perform c (env w) (device w)) as [[[] | err] [e d]];
    reflexivity.
Qed.

Lemma run_unfold (c : Command.t) arg :
  run c arg = (await (client_method c arg) ;; async_request_refresh).
Proof. destruct c; reflexivity. Qed.

Lemma run_run (c : Command.t) arg w :
  run c arg w =
  match DeviceAws.perform (client_method c arg) (env w) (device w) with
  | (Py.Ok _, (e, d)) =>
      (Py.Ok tt,
       mkWorld e d (self w)
         (trace w ++ [DeviceCall (client_method c arg); RequestRefresh]))
  | (Py.Raise err, (e, d)) =>
      (Py.Raise err,
       mkWorld e d (self w) (trace w ++ [DeviceCall (client_method c arg)]))
  end.
Proof.
  rewrite run_unfold. unfold bind. rewrite await_run.
  destruct (DeviceAws.perform _ (env w) (device w)) as [[[] | err] [e d]].
  - unfold async_request_refresh, emit. cbn. rewrite <- app_assoc. reflexivity.
  - reflexivity.
Qed.

Lemma update_run w :
  _async_update_data w =
  match DeviceAws.perform DeviceAws.refresh (env w) (device w) with
  | (Py.Ok _, (e, d)) =>
      (Py.Ok [],
       mkWorld e d
         (mk (hass (self w)) (_manufacturer (self w)) (logger (self w))
            (DOMAIN ++ "-" ++ Py.str (DeviceAws.name d))
            (update_interval (self w)) (request_refresh_debouncer (self w)))
         (trace w ++ [DeviceCall DeviceAws.refresh;
                      LogInfo _LOGGER "update called, pm1=%s" [DeviceAws.pm1 d]]))
  | (Py.Raise error, (e, d)) =>
      if Py.is_Exception error then
        (Py.Raise (Py.UpdateFailed error error),
         mkWorld e d (self w)
           (trace w ++ [DeviceCall DeviceAws.refresh; LogException _LOGGER error]))
      else
        (Py.Raise error,
         mkWorld e d (self w) (trace w ++ [DeviceCall DeviceAws.refresh]))
  end.
Proof.
  unfold _async_update_data, try_except, bind. rewrite await_run.
  destruct (DeviceAws.perform _ (env w) (device w)) as [[[] | err] [e d]].
  - cbn. rewrite <- app_assoc. reflexivity.
  - destruct (Py.is_Exception err).
    + cbn. rewrite <- app_assoc. reflexivity.
    + reflexivity.
Qed.

Lemma step_manufacturer w (o : operation) :
  _manufacturer (self (step w o)) = _manufacturer (self w).
Proof.
  destruct o as [p | c arg | ]; cbn [step].
  - rewrite get_unchanged. reflexivity.
  - rewrite run_run.
    destruct (DeviceAws.perform _ (env w) (device w)) as [[[] | err] [e d]];
      reflexivity.
  - rewrite update_run.
    destruct (DeviceAws.perform _ (env w) (device w)) as [[[] | err] [e d]];
      try destruct (Py.is_Exception err);
      reflexivity.
Qed.

Lemma steps_manufacturer (ops : list operation) w :
  _manufacturer (self (steps ops w)) = _manufacturer (self w).
Proof.
  revert w. induction ops as [| o ops IH]; intro w.
  - reflexivity.
  - cbn [steps fold_left]. fold (steps ops (step w o)).
    rewrite IH. apply step_manufacturer.
Qed.

(** *** The claims *)

(** C1. For every device model, [speed_count] returns exactly one
    maximum fan speed, fixed by the model alone: 64 for
    [HUMIDIFIER_H35I], 91 for [MAX_211I], [MAX_311I], [PROTECT_7440I]
    and [PROTECT_7470I], 4 for [T10I], and 100 for every other model. *)
Theorem speed_count_by_model w :
  speed_count w =
  (Py.Ok (Py.Int
     match DeviceAws.model (device w) with
     | HUMIDIFIER_H35I => 64
     | MAX_211I | MAX_311I | PROTECT_7440I | PROTECT_7470I => 91
     | T10I => 4
     | OTHER _ => 100
     end), w).
Proof. apply speed_count_run. Qed.

(** C2. Every command method, on every argument, hands that very
    argument to the client's method of the same name; when that call
    returns, a refresh of the coordinator is requested next, so the
    events are the device call followed by the refresh request; when it
    raises, the exception goes to the caller and no refresh is
    requested. The coordinator object itself is not touched. *)
Theorem command_forwards_then_refreshes (c : Command.t) arg w
    (r : Py.result unit) (e : Env) (d : DeviceAws.t) :
  DeviceAws.perform (client_method c arg) (env w) (device w) = (r, (e, d)) ->
  run c arg w =
  match r with
  | Py.Ok _ =>
      (Py.Ok tt,
       mkWorld e d (self w)
         (trace w ++ [DeviceCall (client_method c arg); RequestRefresh]))
  | Py.Raise error =>
      (Py.Raise error,
       mkWorld e d (self w) (trace w ++ [DeviceCall (client_method c arg)]))
  end.
Proof.
  intro H. rewrite run_run, H. destruct r; reflexivity.
Qed.

(** C3. Each forwarding property returns exactly the attribute of the
    wrapped client it stands for. *)
Theorem properties_forward_attributes w :
  let d := device w in
  id w = (Py.Ok (DeviceAws.uuid d), w) /\
  device_name w = (Py.Ok (DeviceAws.name d), w) /\
  model w = (Py.Ok (DeviceAws.model_name (DeviceAws.model d)), w) /\
  fan_speed w = (Py.Ok (DeviceAws.fan_speed d), w) /\
  is_on w = (Py.Ok (DeviceAws.running d), w) /\
  brightness w = (Py.Ok (DeviceAws.brightness d), w) /\
  child_lock w = (Py.Ok (DeviceAws.child_lock d), w) /\
  night_mode w = (Py.Ok (DeviceAws.night_mode d), w) /\
  temperature w = (Py.Ok (DeviceAws.temperature d), w) /\
  humidity w = (Py.Ok (DeviceAws.humidity d), w) /\
  voc w = (Py.Ok (DeviceAws.tVOC d), w) /\
  pm1 w = (Py.Ok (DeviceAws.pm1 d), w) /\
  pm10 w = (Py.Ok (DeviceAws.pm10 d), w) /\
  pm25 w = (Py.Ok (DeviceAws.pm2_5 d), w) /\
  online w = (Py.Ok (DeviceAws.wifi_working d), w) /\
  fan_auto_mode w = (Py.Ok (DeviceAws.fan_auto_mode d), w) /\
  wick_dry_mode w = (Py.Ok (DeviceAws.wick_dry_mode d), w) /\
  water_shortage w = (Py.Ok (DeviceAws.water_shortage d), w).
Proof. cbv zeta. repeat split. Qed.

(** C4. Every property is read-only: evaluating it, whether it returns
    or raises, leaves the coordinator object and the client object as
    they were, and with them the whole world. *)
Theorem properties_read_only (p : Property.t) w :
  self (snd (get p w)) = self w /\
  device (snd (get p w)) = device w /\
  snd (get p w) = w.
Proof. rewrite get_unchanged. repeat split. Qed.

(** C5. For every host instance and client, the constructor hands the
    host an update interval of exactly 5 minutes and a debouncer with a
    cooldown of exactly 5.0 seconds and [immediate=False], and names the
    coordinator with the domain, a hyphen and the client's uuid; it
    only configures: no call to the client and no refresh request is
    made while it runs. *)
Theorem init_configures_host (h : Host.HomeAssistant) (d : DeviceAws.t) :
  let c := __init__ h d in
  update_interval c = Host.timedelta_minutes 5 /\
  update_interval c = Host.mk_timedelta 0 (5 * 60) 0 /\
  Qeq (Host.total_seconds (update_interval c)) (inject_Z (5 * 60)) /\
  request_refresh_debouncer c = Host.mk_Debouncer h _LOGGER (5 # 1) false /\
  Host.cooldown (request_refresh_debouncer c) = (5 # 1)%Q /\
  Host.immediate (request_refresh_debouncer c) = false /\
  name c = DOMAIN ++ "-" ++ Py.str (DeviceAws.uuid d) /\
  forall e : Env,
    self (construct e h d) = c /\ device (construct e h d) = d /\
    env (construct e h d) = e /\ trace (construct e h d) = [].
Proof. cbv zeta. repeat split. Qed.

(** C6. [filter_expired] returns the comparison of the filter usage
    with the threshold whenever the filter usage is neither
    [NotImplemented] nor [None]; otherwise the same comparison on the
    wick usage whenever that is neither [NotImplemented] nor [None];
    and [None], not a boolean, when both are unavailable. *)
Theorem filter_expired_cases w :
  let f := DeviceAws.filter_usage_percentage (device w) in
  let k := DeviceAws.wick_usage_percentage (device w) in
  (f <> Py.NotImplemented /\ f <> Py.None ->
   filter_expired w = (Py.ge f FILTER_EXPIRED_THRESHOLD, w)) /\
  (f = Py.NotImplemented \/ f = Py.None ->
   k <> Py.NotImplemented /\ k <> Py.None ->
   filter_expired w = (Py.ge k FILTER_EXPIRED_THRESHOLD, w)) /\
  (f = Py.NotImplemented \/ f = Py.None ->
   k = Py.NotImplemented \/ k = Py.None ->
   filter_expired w = (Py.Ok Py.None, w)).
Proof.
  cbv zeta. rewrite filter_expired_run. repeat split.
  - intro Hf. rewrite (contains_available _ Hf). reflexivity.
  - intros Hf Hk. apply contains_unavailable in Hf.
    rewrite Hf, (contains_available _ Hk). reflexivity.
  - intros Hf Hk. apply contains_unavailable in Hf, Hk.
    rewrite Hf, Hk. reflexivity.
Qed.

(** C7, as amended. In every run of the periodic update: if the
    client's refresh raises an exception that is an instance of
    [Exception], the update raises [UpdateFailed] wrapping that
    exception; if it raises one that is not (a signal deriving from
    [BaseException] only, such as [asyncio.CancelledError]), that
    exception goes on to the caller unwrapped; in both cases the
    coordinator's name is as before. If the refresh returns, the update
    sets the coordinator's name to the domain, a hyphen and the name the
    client has after the refresh, and returns an empty dictionary. *)
Theorem update_data_outcomes w (r : Py.result unit) (e : Env) (d : DeviceAws.t) :
  DeviceAws.perform DeviceAws.refresh (env w) (device w) = (r, (e, d)) ->
  let out := fst (_async_update_data w) in
  let w' := snd (_async_update_data w) in
  device w' = d /\
  match r with
  | Py.Raise error =>
      out = Py.Raise (if Py.is_Exception error
                      then Py.UpdateFailed error error
                      else error) /\
      name (self w') = name (self w) /\
      self w' = self w
  | Py.Ok _ =>
      out = Py.Ok [] /\
      name (self w') = DOMAIN ++ "-" ++ Py.str (DeviceAws.name (device w'))
  end.
Proof.
  intro H. cbv zeta. rewrite update_run, H.
  destruct r as [[] | error]; [ | destruct (Py.is_Exception error)];
    cbn; repeat split.
Qed.

(** C8. [co2] returns the sentinel [NotImplemented] in every world, and
    [manufacturer] returns the string "BlueAir" whatever the wrapped
    client is; both still hold after any sequence of operations on a
    coordinator. *)
Theorem co2_and_manufacturer_constant (e : Env) (h : Host.HomeAssistant)
    (d : DeviceAws.t) (ops : list operation) :
  (forall w, co2 w = (Py.Ok Py.NotImplemented, w)) /\
  manufacturer (construct e h d) =
    (Py.Ok (Py.Str "BlueAir"), construct e h d) /\
  let w := steps ops (construct e h d) in
  co2 w = (Py.Ok Py.NotImplemented, w) /\
  manufacturer w = (Py.Ok (Py.Str "BlueAir"), w).
Proof.
  cbv zeta. repeat split.
  unfold manufacturer, bind, getattr, ret.
  rewrite steps_manufacturer. reflexivity.
Qed.

End Properties.

(** ** The coordinator on the simulated client *)

#[local] Existing Instance Simulated.api.
#[local] Existing Instance Simulated.const.

Example str_examples :
  Py.str (Py.Int 0) = "0" /\ Py.str (Py.Int (-12)) = "-12" /\
  Py.str (Py.Int 305) = "305" /\ Py.str Py.None = "None".
Proof. repeat split; reflexivity. Qed.

Example ge_examples :
  Py.ge (Py.Int 95) (Py.Int 95) = Py.Ok (Py.Bool true) /\
  Py.ge (Py.Int 94) (Py.Int 95) = Py.Ok (Py.Bool false) /\
  Py.ge (Py.Bool true) (Py.Int 1) = Py.Ok (Py.Bool true) /\
  Py.ge (Py.Str "b") (Py.Str "a") = Py.Ok (Py.Bool true) /\
  Py.ge (Py.Str "a") (Py.Int 1) = Py.Raise Py.TypeError /\
  Py.ge Py.None (Py.Int 1) = Py.Raise Py.TypeError.
Proof. repeat split; reflexivity. Qed.

Example init_example :
  name (self (Simulated.world [] Simulated.purifier)) = "ha_blueair-a1b2" /\
  update_interval (self (Simulated.world [] Simulated.purifier)) =
    Host.mk_timedelta 0 300 0.
Proof. split; reflexivity. Qed.

Example speed_count_examples :
  fst (speed_count (Simulated.world [] Simulated.purifier)) = Py.Ok (Py.Int 91) /\
  fst (speed_count (Simulated.world [] Simulated.humidifier)) = Py.Ok (Py.Int 64) /\
  fst (speed_count (Simulated.world [] Simulated.blank)) = Py.Ok (Py.Int 100).
Proof. repeat split; reflexivity. Qed.

Example filter_expired_examples :
  fst (filter_expired (Simulated.world [] Simulated.purifier)) = Py.Ok (Py.Bool true) /\
  fst (filter_expired (Simulated.world [] Simulated.humidifier)) = Py.Ok (Py.Bool false) /\
  fst (filter_expired (Simulated.world [] Simulated.blank)) = Py.Ok Py.None.
Proof. repeat split; reflexivity. Qed.

(** A refresh that brings a new name renames the coordinator. *)
Example update_example :
  let w := Simulated.world [inr Simulated.humidifier] Simulated.purifier in
  fst (_async_update_data w) = Py.Ok [] /\
  name (self (snd (_async_update_data w))) = "ha_blueair-Bedroom" /\
  trace (snd (_async_update_data w)) =
    [DeviceCall DeviceAws.refresh;
     LogInfo _LOGGER "update called, pm1=%s" [Py.NotImplemented]].
Proof. repeat split; reflexivity. Qed.

(** A command, an update and a read in a row: the update replaces the
    uuid in the coordinator's name with the client's name, and the
    manufacturer stays. *)
Example operations_example :
  let w := steps [Call Command.set_fan_speed (Py.Int 40); Update; Read Property.fan_speed]
             (Simulated.world [inr Simulated.humidifier] Simulated.purifier) in
  name (self w) = "ha_blueair-Bedroom" /\
  fst (fan_speed w) = Py.Ok (Py.Int 11) /\
  fst (manufacturer w) = Py.Ok (Py.Str "BlueAir") /\
  trace w =
    [DeviceCall (DeviceAws.set_fan_speed (Py.Int 40)); RequestRefresh;
     DeviceCall DeviceAws.refresh;
     LogInfo _LOGGER "update called, pm1=%s" [Py.NotImplemented]].
Proof. repeat split; reflexivity. Qed.

(** C2 at work: a command the simulated client accepts, and one it
    rejects. *)
Lemma command_forwards_then_refreshes_witness :
  let w := Simulated.world [] Simulated.purifier in
  (DeviceAws.perform (client_method Command.set_fan_speed (Py.Int 40))
     (env w) (device w) =
   (Py.Ok tt, ([], Simulated.with_fan_speed (Py.Int 40) Simulated.purifier)) /\
   run Command.set_fan_speed (Py.Int 40) w =
   (Py.Ok tt,
    mkWorld [] (Simulated.with_fan_speed (Py.Int 40) Simulated.purifier) (self w)
      [DeviceCall (DeviceAws.set_fan_speed (Py.Int 40)); RequestRefresh])) /\
  (DeviceAws.perform (client_method Command.set_brightness (Py.Str "high"))
     (env w) (device w) =
   (Py.Raise Py.TypeError, ([], Simulated.purifier)) /\
   run Command.set_brightness (Py.Str "high") w =
   (Py.Raise Py.TypeError,
    mkWorld [] Simulated.purifier (self w)
      [DeviceCall (DeviceAws.set_brightness (Py.Str "high"))])).
Proof.
  cbv zeta. split; (split; [reflexivity | ]).
  - apply (command_forwards_then_refreshes Command.set_fan_speed (Py.Int 40)
             (Simulated.world [] Simulated.purifier) (Py.Ok tt) []
             (Simulated.with_fan_speed (Py.Int 40) Simulated.purifier)).
    reflexivity.
  - apply (command_forwards_then_refreshes Command.set_brightness (Py.Str "high")
             (Simulated.world [] Simulated.purifier) (Py.Raise Py.TypeError) []
             Simulated.purifier).
    reflexivity.
Defined.

(** C6 at work: a purifier with a worn filter, a humidifier with a
    fresh wick, and a client that knows neither. *)
Lemma filter_expired_cases_witness :
  filter_expired (Simulated.world [] Simulated.purifier) =
    (Py.Ok (Py.Bool true), Simulated.world [] Simulated.purifier) /\
  filter_expired (Simulated.world [] Simulated.humidifier) =
    (Py.Ok (Py.Bool false), Simulated.world [] Simulated.humidifier) /\
  filter_expired (Simulated.world [] Simulated.blank) =
    (Py.Ok Py.None, Simulated.world [] Simulated.blank).
Proof.
  split; [ | split ].
  - refine (proj1 (filter_expired_cases (Simulated.world [] Simulated.purifier)) _).
    split; discriminate.
  - refine (proj1 (proj2 (filter_expired_cases
                            (Simulated.world [] Simulated.humidifier))) _ _).
    + left; reflexivity.
    + split; discriminate.
  - refine (proj2 (proj2 (filter_expired_cases
                            (Simulated.world [] Simulated.blank))) _ _).
    + left; reflexivity.
    + right; reflexivity.
Defined.

(** C7 as stated fails when the task is cancelled while the refresh is
    awaited: the cancellation is not an instance of [Exception], so the
    update raises it as it is and not an [UpdateFailed] wrapping it. *)
Lemma update_data_cancelled_counterexample :
  let w := Simulated.world [inl Py.CancelledError] Simulated.purifier in
  fst (DeviceAws.perform DeviceAws.refresh (env w) (device w)) =
    Py.Raise Py.CancelledError /\
  fst (_async_update_data w) = Py.Raise Py.CancelledError /\
  fst (_async_update_data w) <>
    Py.Raise (Py.UpdateFailed Py.CancelledError Py.CancelledError).
Proof.
  cbv zeta. split; [reflexivity | ]. split; [reflexivity | ].
  cbn. discriminate.
Qed.

(** C7 at work: a refresh the cloud answers with an error, one that is
    cancelled, and one the cloud answers with the attributes of a
    renamed client. *)
Lemma update_data_outcomes_witness :
  let error := Py.ApiError "ClientResponseError" "503" in
  let failing := Simulated.world [inl error] Simulated.purifier in
  let cancelled := Simulated.world [inl Py.CancelledError] Simulated.purifier in
  let renamed := Simulated.world [inr Simulated.humidifier] Simulated.purifier in
  (DeviceAws.perform DeviceAws.refresh (env failing) (device failing) =
     (Py.Raise error, ([], Simulated.purifier)) /\
   fst (_async_update_data failing) = Py.Raise (Py.UpdateFailed error error) /\
   name (self (snd (_async_update_data failing))) = "ha_blueair-a1b2") /\
  (DeviceAws.perform DeviceAws.refresh (env cancelled) (device cancelled) =
     (Py.Raise Py.CancelledError, ([], Simulated.purifier)) /\
   fst (_async_update_data cancelled) = Py.Raise Py.CancelledError /\
   name (self (snd (_async_update_data cancelled))) = "ha_blueair-a1b2") /\
  (DeviceAws.perform DeviceAws.refresh (env renamed) (device renamed) =
     (Py.Ok tt, ([], Simulated.humidifier)) /\
   fst (_async_update_data renamed) = Py.Ok [] /\
   name (self (snd (_async_update_data renamed))) = "ha_blueair-Bedroom").
Proof.
  cbv zeta. split; [ | split ].
  - pose proof (update_data_outcomes
                  (Simulated.world [inl (Py.ApiError "ClientResponseError" "503")]
                     Simulated.purifier)
                  (Py.Raise (Py.ApiError "ClientResponseError" "503")) []
                  Simulated.purifier eq_refl) as H.
    cbv zeta in H. destruct H as (_ & Hout & Hname & _).
    split; [reflexivity | split; [exact Hout | rewrite Hname; reflexivity]].
  - pose proof (update_data_outcomes
                  (Simulated.world [inl Py.CancelledError] Simulated.purifier)
                  (Py.Raise Py.CancelledError) [] Simulated.purifier eq_refl) as H.
    cbv zeta in H. destruct H as (_ & Hout & Hname & _).
    split; [reflexivity | split; [exact Hout | rewrite Hname; reflexivity]].
  - pose proof (update_data_outcomes
                  (Simulated.world [inr Simulated.humidifier] Simulated.purifier)
                  (Py.Ok tt) [] Simulated.humidifier eq_refl) as H.
    cbv zeta in H. destruct H as (Hdev & Hout & Hname).
    split; [reflexivity | split; [exact Hout | rewrite Hname, Hdev; reflexivity]].
Defined.

(** ** Further properties of the coordinator *)

Section Further.

Context {Env : Type} {Api : DeviceAws.Api Env} {Cst : Const}.
Implicit Types (w : World Env) (v : Py.value) (ops : list operation).

(** *** Python's comparison *)

Lemma ge_raises (a b : Py.value) (e : Py.exn) :
  Py.ge a b = Py.Raise e -> e = Py.TypeError.
Proof.
  destruct a, b; cbn; intro H; try discriminate H; injection H as <-; reflexivity.
Qed.

Lemma ge_returns (a b v : Py.value) :
  Py.ge a b = Py.Ok v -> exists t : bool, v = Py.Bool t.
Proof.
  destruct a, b; cbn; intro H; try discriminate H;
    injection H as <-; eexists; reflexivity.
Qed.

Lemma unavailable_dec v :
  {v = Py.NotImplemented \/ v = Py.None} + {v <> Py.NotImplemented /\ v <> Py.None}.
Proof.
  destruct v; try (right; split; discriminate); left; auto.
Qed.

(** *** Properties *)

(** X1. [speed_count] never fails and never returns zero: it returns an
    integer that is one of 4, 64, 91 and 100, so a fan speed can always
    be scaled against it. *)
Theorem speed_count_range w :
  exists n : Z,
    speed_count w = (Py.Ok (Py.Int n), w) /\
    In n [4; 64; 91; 100] /\ 4 <= n <= 100.
Proof.
  rewrite speed_count_run.
  destruct (DeviceAws.model (device w)); eexists; (split; [reflexivity | ]);
    cbn; (split; [tauto | split; discriminate]).
Qed.

(** X2. The only property that can raise is [filter_expired], and what it
    raises is the [TypeError] of comparing a usage with the threshold. *)
Theorem property_raises_only_type_error (p : Property.t) w (e : Py.exn) :
  fst (get p w) = Py.Raise e ->
  p = Property.filter_expired /\ e = Py.TypeError.
Proof.
  destruct p; cbn [get]; try (cbn; discriminate).
  - rewrite speed_count_run. cbn. discriminate.
  - rewrite filter_expired_run. cbn [fst]. intro H. split; [reflexivity | ].
    destruct (negb _) in H; [exact (ge_raises _ _ _ H) | ].
    destruct (negb _) in H; [exact (ge_raises _ _ _ H) | discriminate H].
Qed.

(** X3. [filter_expired] returns [None] exactly when both the filter usage
    and the wick usage are unavailable; every other value it returns is
    a boolean. *)
Theorem filter_expired_none_iff w :
  let f := DeviceAws.filter_usage_percentage (device w) in
  let k := DeviceAws.wick_usage_percentage (device w) in
  (fst (filter_expired w) = Py.Ok Py.None <->
   (f = Py.NotImplemented \/ f = Py.None) /\
   (k = Py.NotImplemented \/ k = Py.None)) /\
  (forall v, fst (filter_expired w) = Py.Ok v ->
             v = Py.None \/ exists t : bool, v = Py.Bool t).
Proof.
  cbv zeta. rewrite filter_expired_run. cbn [fst].
  destruct (unavailable_dec (DeviceAws.filter_usage_percentage (device w)))
    as [Hf | Hf];
    [ rewrite (proj2 (contains_unavailable _) Hf)
    | rewrite (contains_available _ Hf) ]; cbn [negb].
  - destruct (unavailable_dec (DeviceAws.wick_usage_percentage (device w)))
      as [Hk | Hk];
      [ rewrite (proj2 (contains_unavailable _) Hk)
      | rewrite (contains_available _ Hk) ]; cbn [negb].
    + split; [tauto | ]. intros v H. injection H as <-. left; reflexivity.
    + split.
      * split.
        -- intro H. apply ge_returns in H. destruct H as [t H]. discriminate H.
        -- intros [_ Hk']. destruct Hk as [Hn Ho]. destruct Hk'; contradiction.
      * intros v H. right. exact (ge_returns _ _ _ H).
  - split.
    + split.
      * intro H. apply ge_returns in H. destruct H as [t H]. discriminate H.
      * intros [Hf' _]. destruct Hf as [Hn Ho]. destruct Hf'; contradiction.
    + intros v H. right. exact (ge_returns _ _ _ H).
Qed.

(** X4. With an integer threshold, an integer filter usage is expired
    exactly from the threshold on, whatever the wick usage is; and
    without a filter usage, an integer wick usage is judged the same
    way. No exception is raised. *)
Theorem filter_expired_on_integers w (t u : Z) :
  FILTER_EXPIRED_THRESHOLD = Py.Int t ->
  let f := DeviceAws.filter_usage_percentage (device w) in
  let k := DeviceAws.wick_usage_percentage (device w) in
  (f = Py.Int u \/ ((f = Py.NotImplemented \/ f = Py.None) /\ k = Py.Int u)) ->
  filter_expired w = (Py.Ok (Py.Bool (t <=? u)), w).
Proof.
  intros Ht f k H. subst f k. rewrite filter_expired_run, Ht.
  destruct H as [Hf | [Hf Hk]].
  - rewrite Hf. cbn. rewrite Z.geb_leb. reflexivity.
  - rewrite (proj2 (contains_unavailable _) Hf), Hk. cbn.
    rewrite Z.geb_leb. reflexivity.
Qed.

(** X5. The filter comes first: when the filter usage is available, the
    outcome of [filter_expired] does not depend on the wick usage, nor
    on anything else in the world. *)
Theorem filter_expired_filter_first (w1 w2 : World Env) :
  DeviceAws.filter_usage_percentage (device w1) =
  DeviceAws.filter_usage_percentage (device w2) ->
  DeviceAws.filter_usage_percentage (device w1) <> Py.NotImplemented ->
  DeviceAws.filter_usage_percentage (device w1) <> Py.None ->
  fst (filter_expired w1) = fst (filter_expired w2).
Proof.
  intros Heq Hn Ho. rewrite !filter_expired_run, <- Heq.
  rewrite (contains_available _ (conj Hn Ho)). reflexivity.
Qed.

(** X6. The coordinator caches nothing: what a property returns is decided
    by the attributes the client holds at that moment (and, for
    [manufacturer], by the constant kept at construction), not by the
    coordinator's name, the events so far or the outside world. *)
Theorem properties_read_through (p : Property.t) (w1 w2 : World Env) :
  device w1 = device w2 ->
  _manufacturer (self w1) = _manufacturer (self w2) ->
  fst (get p w1) = fst (get p w2).
Proof.
  intros Hd Hm. destruct p; cbn [get];
    try (cbn; rewrite ?Hd, ?Hm; reflexivity).
  - rewrite !speed_count_run, Hd. reflexivity.
  - rewrite !filter_expired_run, Hd. reflexivity.
Qed.

(** *** The periodic update *)


(** *** Sequences of operations *)

Lemma step_config w (o : operation) :
  hass (self (step w o)) = hass (self w) /\
  logger (self (step w o)) = logger (self w) /\
  update_interval (self (step w o)) = update_interval (self w) /\
  request_refresh_debouncer (self (step w o)) = request_refresh_debouncer (self w).
Proof.
  destruct o as [p | c arg | ]; cbn [step].
  - rewrite get_unchanged. repeat split.
  - rewrite run_run.
    destruct (DeviceAws.perform _ (env w) (device w)) as [[[] | err] [e d]];
      repeat split.
  - rewrite update_run.
    destruct (DeviceAws.perform _ (env w) (device w)) as [[[] | err] [e d]];
      try destruct (Py.is_Exception err);
      repeat split.
Qed.

(** X8. What the constructor configured stays configured: no sequence of
    reads, commands and updates changes the host instance, the logger,
    the update interval, the debouncer or the manufacturer of a
    coordinator. Only its name can change. *)
Theorem configuration_kept ops w :
  hass (self (steps ops w)) = hass (self w) /\
  logger (self (steps ops w)) = logger (self w) /\
  update_interval (self (steps ops w)) = update_interval (self w) /\
  request_refresh_debouncer (self (steps ops w)) =
    request_refresh_debouncer (self w) /\
  _manufacturer (self (steps ops w)) = _manufacturer (self w).
Proof.
  revert w. induction ops as [| o ops IH]; intro w.
  - repeat split.
  - cbn [steps fold_left]. fold (steps ops (step w o)).
    destruct (IH (step w o)) as (Hh & Hl & Hu & Hr & Hm).
    destruct (step_config w o) as (Hh' & Hl' & Hu' & Hr').
    rewrite Hh, Hl, Hu, Hr, Hm, Hh', Hl', Hu', Hr'.
    rewrite step_manufacturer. repeat split.
Qed.

Lemma step_name w (o : operation) :
  (exists s, name (self w) = DOMAIN ++ "-" ++ s) ->
  exists s, name (self (step w o)) = DOMAIN ++ "-" ++ s.
Proof.
  intros [s Hs]. destruct o as [p | c arg | ]; cbn [step].
  - rewrite get_unchanged. exists s. exact Hs.
  - rewrite run_run.
    destruct (DeviceAws.perform _ (env w) (device w)) as [[[] | err] [e d]];
      exists s; exact Hs.
  - rewrite update_run.
    destruct (DeviceAws.perform _ (env w) (device w)) as [[[] | err] [e d]].
    + eexists. reflexivity.
    + destruct (Py.is_Exception err); exists s; exact Hs.
Qed.

(** X9. From its construction on and after any sequence of operations, the
    name of a coordinator is the domain, a hyphen and some text. *)
Theorem name_keeps_domain_prefix (e : Env) (h : Host.HomeAssistant)
    (d : DeviceAws.t) ops :
  exists s : string,
    name (self (steps ops (construct e h d))) = DOMAIN ++ "-" ++ s.
Proof.
  assert (H : exists s, name (self (construct e h d)) = DOMAIN ++ "-" ++ s)
    by (eexists; reflexivity).
  revert H. generalize (construct e h d) as w.
  induction ops as [| o ops IH]; intros w H.
  - exact H.
  - cbn [steps fold_left]. apply IH. apply step_name. exact H.
Qed.

(** X10. Only the update renames: a sequence of reads and commands, however
    the client answers, leaves the coordinator object as it was. *)
Theorem only_update_writes_coordinator ops w :
  forallb (fun o => negb (Observe.is_update o)) ops = true ->
  self (steps ops w) = self w.
Proof.
  revert w. induction ops as [| o ops IH]; intros w H.
  - reflexivity.
  - cbn [forallb] in H. apply andb_prop in H. destruct H as [Ho H].
    cbn [steps fold_left]. fold (steps ops (step w o)).
    rewrite (IH _ H).
    destruct o as [p | c arg | ]; cbn [step].
    + rewrite get_unchanged. reflexivity.
    + rewrite run_run.
      destruct (DeviceAws.perform _ (env w) (device w)) as [[[] | err] [e d]];
        reflexivity.
    + discriminate Ho.
Qed.

(** *** Traces *)

Lemma refreshes_follow_calls_app (b : bool) (tr tr' : list event) :
  Observe.refreshes_follow_calls b (tr ++ tr') =
  Observe.refreshes_follow_calls b tr
  && Observe.refreshes_follow_calls (Observe.ends_with_call b tr) tr'.
Proof.
  revert b. induction tr as [| e tr IH]; intro b.
  - reflexivity.
  - cbn [app Observe.refreshes_follow_calls Observe.ends_with_call].
    rewrite IH, andb_assoc. reflexivity.
Qed.

Lemma client_method_is_command (c : Command.t) (arg : Py.value) :
  Observe.is_command_call (client_method c arg) = true.
Proof. destruct c; reflexivity. Qed.

Lemma step_trace w (o : operation) :
  exists tr : list event,
    trace (step w o) = (trace w ++ tr)%list /\
    (forall b, Observe.refreshes_follow_calls b tr = true) /\
    Observe.count_device_calls tr = Nat.b2n (Observe.reaches_client o) /\
    (Observe.count_refresh_requests tr <= Nat.b2n (Observe.is_command o))%nat.
Proof.
  destruct o as [p | c arg | ]; cbn [step].
  - rewrite get_unchanged. exists []. rewrite app_nil_r. cbn. auto.
  - rewrite run_run.
    destruct (DeviceAws.perform _ (env w) (device w)) as [[[] | err] [e d]];
      cbn [snd trace]; eexists; (split; [reflexivity | ]); cbn;
      rewrite ?client_method_is_command; auto.
  - rewrite update_run.
    destruct (DeviceAws.perform _ (env w) (device w)) as [[[] | err] [e d]];
      try destruct (Py.is_Exception err);
      cbn [snd trace]; eexists; (split; [reflexivity | ]); cbn; auto.
Qed.

Lemma step_refresh_requests w (o : operation) :
  Observe.count_refresh_requests (trace (step w o)) =
  (Observe.count_refresh_requests (trace w)
   + match o with
     | Call c arg => Nat.b2n (Observe.client_returns c arg w)
     | _ => 0
     end)%nat.
Proof.
  unfold Observe.count_refresh_requests, Observe.client_returns.
  destruct o as [p | c arg | ]; cbn [step].
  - rewrite get_unchanged. lia.
  - rewrite run_run.
    destruct (DeviceAws.perform _ (env w) (device w)) as [[[] | err] [e d]];
      cbn [fst snd trace]; rewrite filter_app, length_app; cbn; lia.
  - rewrite update_run.
    destruct (DeviceAws.perform _ (env w) (device w)) as [[[] | err] [e d]];
      try destruct (Py.is_Exception err);
      cbn [fst snd trace]; rewrite filter_app, length_app; cbn; lia.
Qed.

Lemma steps_refresh_requests ops w :
  Observe.count_refresh_requests (trace (steps ops w)) =
  (Observe.count_refresh_requests (trace w) + Observe.returned_commands ops w)%nat.
Proof.
  revert w. induction ops as [| o ops IH]; intro w.
  - cbn. lia.
  - cbn [steps fold_left Observe.returned_commands].
    fold (steps ops (step w o)).
    rewrite IH, step_refresh_requests. lia.
Qed.

(** X11. In the events of a coordinator, every refresh request comes
    right after a setter call on the client, and there are exactly as
    many refresh requests as commands whose call to the client
    returned: none is made after a read, after an update or after a
    command the client rejected. *)
Theorem refresh_requests_follow_commands (e : Env) (h : Host.HomeAssistant)
    (d : DeviceAws.t) ops :
  Observe.refreshes_follow_calls false
    (trace (steps ops (construct e h d))) = true /\
  Observe.count_refresh_requests (trace (steps ops (construct e h d))) =
    Observe.returned_commands ops (construct e h d).
Proof.
  split; [ | rewrite steps_refresh_requests; reflexivity].
  assert (H : Observe.refreshes_follow_calls false
                (trace (construct e h d)) = true) by reflexivity.
  revert H. generalize (construct e h d) as w.
  induction ops as [| o ops IH]; intros w H.
  - exact H.
  - cbn [steps fold_left]. apply IH.
    destruct (step_trace w o) as (tr & -> & Htr & _).
    rewrite refreshes_follow_calls_app, H, Htr. reflexivity.
Qed.

(** X12. Every command and every update calls the client exactly once and a
    read never does; and there is at most one refresh request for each
    command. *)
Theorem one_client_call_per_operation ops w :
  Observe.count_device_calls (trace (steps ops w)) =
    (Observe.count_device_calls (trace w)
     + List.length (filter Observe.reaches_client ops))%nat /\
  (Observe.count_refresh_requests (trace (steps ops w)) <=
     Observe.count_refresh_requests (trace w)
     + List.length (filter Observe.is_command ops))%nat.
Proof.
  revert w. induction ops as [| o ops IH]; intro w.
  - cbn. rewrite !Nat.add_0_r. split; [reflexivity | apply Nat.le_refl].
  - cbn [steps fold_left]. fold (steps ops (step w o)).
    destruct (IH (step w o)) as [Hc Hr].
    destruct (step_trace w o) as (tr & Ht & _ & Hd & Hq).
    rewrite Ht in Hc, Hr.
    unfold Observe.count_device_calls, Observe.count_refresh_requests in *.
    rewrite filter_app, length_app in Hc, Hr.
    destruct o as [p | c arg | ]; cbn in Hd, Hq;
      cbn [filter Observe.reaches_client Observe.is_command Datatypes.length];
      lia.
Qed.

End Further.

(** ** Further properties on the simulated client *)

(** The client that reports its filter usage as text makes
    [filter_expired] raise. *)
Lemma property_raises_only_type_error_witness :
  fst (get Property.filter_expired (Simulated.world [] Scenario.garbled)) =
    Py.Raise Py.TypeError /\
  (Property.filter_expired = Property.filter_expired /\
   Py.TypeError = Py.TypeError).
Proof.
  split; [reflexivity | ].
  apply (property_raises_only_type_error Property.filter_expired
           (Simulated.world [] Scenario.garbled) Py.TypeError).
  reflexivity.
Defined.

(** A filter at 96 against the threshold 95, and a wick at 12. *)
Lemma filter_expired_on_integers_witness :
  filter_expired (Simulated.world [] Simulated.purifier) =
    (Py.Ok (Py.Bool true), Simulated.world [] Simulated.purifier) /\
  filter_expired (Simulated.world [] Simulated.humidifier) =
    (Py.Ok (Py.Bool false), Simulated.world [] Simulated.humidifier).
Proof.
  split.
  - refine (filter_expired_on_integers
              (Simulated.world [] Simulated.purifier) 95 96 eq_refl _).
    left; reflexivity.
  - refine (filter_expired_on_integers
              (Simulated.world [] Simulated.humidifier) 95 12 eq_refl _).
    right; split; [left | ]; reflexivity.
Defined.

(** The same filter with and without a wick. *)
Lemma filter_expired_filter_first_witness :
  DeviceAws.wick_usage_percentage Simulated.purifier <>
  DeviceAws.wick_usage_percentage Scenario.with_wick /\
  fst (filter_expired (Simulated.world [] Simulated.purifier)) =
  fst (filter_expired (Simulated.world [inl Py.TypeError] Scenario.with_wick)).
Proof.
  split; [discriminate | ].
  apply (filter_expired_filter_first
           (Simulated.world [] Simulated.purifier)
           (Simulated.world [inl Py.TypeError] Scenario.with_wick));
    [reflexivity | discriminate | discriminate].
Defined.

(** The same client before and after an update that renamed the
    coordinator. *)
Lemma properties_read_through_witness :
  let w1 := Simulated.world [] Simulated.purifier in
  let w2 := snd (_async_update_data
                   (Simulated.world [inr Simulated.purifier] Simulated.purifier)) in
  name (self w1) <> name (self w2) /\
  trace w1 <> trace w2 /\
  fst (get Property.device_name w1) = fst (get Property.device_name w2) /\
  fst (get Property.filter_expired w1) = fst (get Property.filter_expired w2).
Proof.
  cbv zeta. split; [discriminate | ]. split; [discriminate | ]. split.
  - apply (properties_read_through Property.device_name
             (Simulated.world [] Simulated.purifier)
             (snd (_async_update_data
                     (Simulated.world [inr Simulated.purifier] Simulated.purifier))));
      reflexivity.
  - apply (properties_read_through Property.filter_expired
             (Simulated.world [] Simulated.purifier)
             (snd (_async_update_data
                     (Simulated.world [inr Simulated.purifier] Simulated.purifier))));
      reflexivity.
Defined.

(** Two commands, one of them rejected by the client, and a read. *)
Lemma only_update_writes_coordinator_witness :
  let ops := [Call Command.set_fan_speed (Py.Int 40);
              Read Property.fan_speed;
              Call Command.set_brightness (Py.Str "high")] in
  let w := Simulated.world [] Simulated.purifier in
  device (steps ops w) <> device w /\
  self (steps ops w) = self w.
Proof.
  cbv zeta. split; [discriminate | ].
  apply (only_update_writes_coordinator
           [Call Command.set_fan_speed (Py.Int 40);
            Read Property.fan_speed;
            Call Command.set_brightness (Py.Str "high")]
           (Simulated.world [] Simulated.purifier)).
  reflexivity.
Defined.
